(** * Shallow embedding of [run] in src/frontend-web/src-tauri/src/lib.rs

    [run] is the desktop bootstrap of the application: it initialises the
    Sentry crash reporter, builds a Tauri application with three plugins,
    installs a setup closure (debug logging plugin, the "soulsense"
    deep-link handler, the "soul-sense-backend" sidecar) and enters the
    Tauri run loop.

    The model is a trace-and-result monad: every call of the program to an
    external library is recorded as an [event], and the outcome of each
    fallible external call is read from an environment [env] (the answers
    of the outside world).  Rust's [?] becomes [question], [unwrap] and
    [expect] become panics carrying Rust's panic message. *)

From Stdlib Require Import String List Bool Arith Lia.
Import ListNotations.
Open Scope string_scope.
Open Scope list_scope.

(** ** External data *)

(** [log::LevelFilter]. *)
Module log.
Inductive LevelFilter := Off | Error | Warn | Info | Debug | Trace.
End log.

(** The plugins the program builds. *)
Inductive plugin :=
| shell_init                             (* tauri_plugin_shell::init() *)
| updater_build                          (* tauri_plugin_updater::Builder::new().build() *)
| deep_link_init                         (* tauri_plugin_deep_link::init() *)
| log_build (level : log.LevelFilter)    (* tauri_plugin_log::Builder::default().level(l).build() *)
| deep_link_register (scheme : string).  (* the plugin returned by tauri_plugin_deep_link::register *)

(** Observable effects of a deep-link callback: what a Tauri callback could
    do with a request (print it, emit it to the frontend, answer it). *)
Inductive io :=
| Println (line : string)
| EmitToFrontend (event payload : string)
| Respond (body : string).

(** Operations offered by the values [spawn] returns: the event receiver
    [_rx] and the [CommandChild] handle [_child]. *)
Inductive child_op :=
| RxRecv
| ChildWrite (bytes : string)
| ChildKill
| ChildPid.

(** The subset of [sentry::ClientOptions] the program sets. *)
Record ClientOptions := { dsn : string; release : option string }.

(** [sentry::ClientInitGuard]. *)
Record ClientInitGuard := { is_enabled : bool }.

(** Calls to the outside world, in the order they happen. *)
Inductive event :=
| SentryInit (opts : ClientOptions) (enabled : bool)
| PluginInit (p : plugin)              (* host initialises a builder plugin *)
| SetupCall                            (* host invokes the setup closure *)
| HandlePlugin (p : plugin)            (* app.handle().plugin(p) *)
| DeepLinkRegister (scheme : string) (handler : string -> list io)
| SidecarResolve (program : string)    (* app.shell().sidecar(program) *)
| SidecarSpawn (program : string)      (* sidecar_command.spawn() *)
| ChildOp (op : child_op)
| DropChild
| DropRx
| LoopEnter
| LoopExit.

(** Answers of the outside world: the build configuration and the result
    of each fallible call ([None] is [Ok], [Some e] is [Err] with [e] the
    error's [Debug] rendering). *)
Record env := {
  debug_assertions : bool;                  (* cfg!(debug_assertions) *)
  sentry_enabled : bool;                    (* whether sentry::init yields an active client *)
  plugin_result : plugin -> option string;  (* initialisation of a plugin *)
  register_result : option string;          (* tauri_plugin_deep_link::register(..) *)
  sidecar_result : option string;           (* app.shell().sidecar(..) *)
  spawn_result : option string;             (* .spawn() *)
  loop_result : option string               (* the host's run loop *)
}.

(** ** The trace-and-result monad *)

Inductive exec (E A : Type) :=
| Ok (a : A)
| Err (e : E)
| Panic (msg : string).
Arguments Ok {E A} a.
Arguments Err {E A} e.
Arguments Panic {E A} msg.

Definition M (E A : Type) := list event -> exec E A * list event.

Definition ret {E A} (a : A) : M E A := fun tr => (Ok a, tr).

Definition bind {E A B} (m : M E A) (k : A -> M E B) : M E B :=
  fun tr =>
    match m tr with
    | (Ok a, tr') => k a tr'
    | (Err e, tr') => (Err e, tr')
    | (Panic s, tr') => (Panic s, tr')
    end.

Notation "x <- m ;; k" := (bind m (fun x => k))
  (at level 61, m at next level, right associativity).
Notation "m ;; k" := (bind m (fun _ => k))
  (at level 61, right associativity).

Definition emit {E} (ev : event) : M E unit := fun tr => (Ok tt, tr ++ [ev]).

(** Rust's [?] on a [Result<(), E>]. *)
Definition question {E} (r : option E) : M E unit :=
  match r with
  | None => ret tt
  | Some e => fun tr => (Err e, tr)
  end.

Definition map_err {E F A} (f : E -> F) (m : M E A) : M F A :=
  fun tr =>
    match m tr with
    | (Ok a, tr') => (Ok a, tr')
    | (Err e, tr') => (Err (f e), tr')
    | (Panic s, tr') => (Panic s, tr')
    end.

(** [Result::expect(msg)]: panics with ["msg: {e:?}"]. *)
Definition expect_result {E F A} (show : F -> string) (msg : string) (m : M F A)
  : M E A :=
  fun tr =>
    match m tr with
    | (Ok a, tr') => (Ok a, tr')
    | (Err e, tr') => (Panic (msg ++ ": " ++ show e)%string, tr')
    | (Panic s, tr') => (Panic s, tr')
    end.

Definition expect {E} (msg : string) (r : option string) : M E unit :=
  expect_result (fun e => e) msg (question r).

(** [Result::unwrap()]. *)
Definition unwrap {E} (r : option string) : M E unit :=
  expect_result (fun e => e) "called `Result::unwrap()` on an `Err` value" (question r).

(** ** The host framework ([tauri::Builder])

    The host is a dependency, not code of this repository.  It is modelled
    as the program relies on it: [Builder::plugin] queues a plugin,
    [Builder::setup] stores the closure, and [Builder::run] initialises the
    queued plugins in order, invokes the setup closure once, and enters the
    run loop only when the closure returned [Ok]; every failure is returned
    as a [tauri::Error]. *)

Inductive tauri_error :=
| Setup (e : string)
| PluginInitialization (p : plugin) (e : string)
| Runtime (e : string).

Definition tauri_error_debug (e : tauri_error) : string :=
  match e with
  | Setup s => ("Setup(" ++ s ++ ")")%string
  | PluginInitialization _ s => ("PluginInitialization(" ++ s ++ ")")%string
  | Runtime s => ("Runtime(" ++ s ++ ")")%string
  end.

Record Builder := { plugins : list plugin; setup_hook : option (M string unit) }.

Definition Builder_default : Builder := {| plugins := []; setup_hook := None |}.

Definition Builder_plugin (b : Builder) (p : plugin) : Builder :=
  {| plugins := plugins b ++ [p]; setup_hook := setup_hook b |}.

Definition Builder_setup (b : Builder) (f : M string unit) : Builder :=
  {| plugins := plugins b; setup_hook := Some f |}.

Fixpoint init_plugins (en : env) (ps : list plugin) : M tauri_error unit :=
  match ps with
  | [] => ret tt
  | p :: ps' =>
      emit (PluginInit p) ;;
      map_err (PluginInitialization p) (question (plugin_result en p)) ;;
      init_plugins en ps'
  end.

Definition Builder_run (en : env) (b : Builder) : M tauri_error unit :=
  init_plugins en (plugins b) ;;
  match setup_hook b with
  | Some f => emit SetupCall ;; map_err Setup f
  | None => ret tt
  end ;;
  emit LoopEnter ;;
  map_err Runtime (question (loop_result en)) ;;
  emit LoopExit.

(** ** The program *)

(** [app.handle().plugin(p)]. *)
Definition handle_plugin {E} (en : env) (p : plugin) : M E (option string) :=
  emit (HandlePlugin p) ;; ret (plugin_result en p).

(** The deep-link callback: [println!("Deep link received: {:?}", request)];
    the request is given by its [Debug] rendering. *)
Definition deep_link_handler (request : string) : list io :=
  [Println ("Deep link received: " ++ request)%string].

(** [tauri_plugin_deep_link::register(scheme, handler)]. *)
Definition deep_link_register_call {E} (en : env) (scheme : string)
  (handler : string -> list io) : M E (option string) :=
  emit (DeepLinkRegister scheme handler) ;; ret (register_result en).

Definition sidecar_name : string := "soul-sense-backend".

(** The setup closure, lines 13-40. *)
Definition setup (en : env) : M string unit :=
  (if debug_assertions en then
     r <- handle_plugin en (log_build log.Info) ;;
     question r
   else ret tt) ;;
  r1 <- deep_link_register_call en "soulsense" deep_link_handler ;;
  question r1 ;;
  r2 <- handle_plugin en (deep_link_register "soulsense") ;;
  question r2 ;;
  emit (SidecarResolve sidecar_name) ;;
  unwrap (sidecar_result en) ;;
  emit (SidecarSpawn sidecar_name) ;;
  expect "Failed to spawn sidecar" (spawn_result en) ;;
  (* end of scope: [_child] then [_rx] are dropped *)
  emit DropChild ;;
  emit DropRx ;;
  ret tt.

Definition sentry_dsn : string := "https://your-sentry-dsn@sentry.io/project-id".

(** The builder of lines 9-40. *)
Definition app_builder (en : env) : Builder :=
  Builder_setup
    (Builder_plugin
       (Builder_plugin
          (Builder_plugin Builder_default shell_init)
          updater_build)
       deep_link_init)
    (setup en).

Section Run.

(** The package name and version, fixed at compile time. *)
Variables CARGO_PKG_NAME CARGO_PKG_VERSION : string.

(** [sentry::release_name!()]. *)
Definition release_name : option string :=
  Some (CARGO_PKG_NAME ++ "@" ++ CARGO_PKG_VERSION)%string.

Definition sentry_init {E} (en : env) (opts : ClientOptions) : M E ClientInitGuard :=
  emit (SentryInit opts (sentry_enabled en)) ;;
  ret {| is_enabled := sentry_enabled en |}.

(** [pub fn run()], lines 2-43. *)
Definition run (en : env) : M Empty_set unit :=
  _guard <- sentry_init en {| dsn := sentry_dsn; release := release_name |} ;;
  expect_result tauri_error_debug "error while running tauri application"
    (Builder_run en (app_builder en)).

(** The recorded calls and the outcome of one start of the program. *)
Definition run_trace (en : env) : list event := snd (run en []).
Definition run_outcome (en : env) : exec Empty_set unit := fst (run en []).

End Run.

(** Exit status of the process: a panic in the main thread exits with 101. *)
Definition exit_code {E A} (o : exec E A) : nat :=
  match o with
  | Ok _ => 0
  | Err _ => 1
  | Panic _ => 101
  end.

(** ** Observations on traces *)

Definition is_sidecar_resolve (ev : event) : bool :=
  match ev with SidecarResolve _ => true | _ => false end.

Definition is_sidecar_spawn (ev : event) : bool :=
  match ev with SidecarSpawn _ => true | _ => false end.

Definition is_deep_link_register (ev : event) : bool :=
  match ev with DeepLinkRegister _ _ => true | _ => false end.

Definition is_child_op (ev : event) : bool :=
  match ev with ChildOp _ => true | _ => false end.

Definition is_log_registration (ev : event) : bool :=
  match ev with
  | HandlePlugin (log_build _) | PluginInit (log_build _) => true
  | _ => false
  end.

(** The deep-link and sidecar steps of the setup closure. *)
Definition is_deep_link_or_sidecar_step (ev : event) : bool :=
  match ev with
  | DeepLinkRegister _ _ | HandlePlugin (deep_link_register _)
  | SidecarResolve _ | SidecarSpawn _ => true
  | _ => false
  end.

Definition is_loop_enter (ev : event) : bool :=
  match ev with LoopEnter => true | _ => false end.

Definition count (f : event -> bool) (tr : list event) : nat :=
  length (filter f tr).

(** The events before the first one satisfying [f] (all of them if none does). *)
Fixpoint before_first (f : event -> bool) (tr : list event) : list event :=
  match tr with
  | [] => []
  | ev :: tr' => if f ev then [] else ev :: before_first f tr'
  end.

(** The events after the first one satisfying [f]. *)
Fixpoint after_first (f : event -> bool) (tr : list event) : option (list event) :=
  match tr with
  | [] => None
  | ev :: tr' => if f ev then Some tr' else after_first f tr'
  end.

(** Delivery of a deep-link request by the host once the calls [tr] have
    happened: every handler registered for the request's scheme is run. *)
Fixpoint deliver (tr : list event) (scheme request : string) : list io :=
  match tr with
  | [] => []
  | DeepLinkRegister s h :: tr' =>
      (if String.eqb s scheme then h request else []) ++ deliver tr' scheme request
  | _ :: tr' => deliver tr' scheme request
  end.

(** Every plugin registration made before the sidecar step succeeds: the
    builder's three plugins, the debug logging plugin (in a debug build),
    the deep-link [register] call and the plugin it returns. *)
Definition registrations_ok (en : env) : bool :=
  match plugin_result en shell_init, plugin_result en updater_build,
        plugin_result en deep_link_init,
        (if debug_assertions en then plugin_result en (log_build log.Info) else None),
        register_result en, plugin_result en (deep_link_register "soulsense") with
  | None, None, None, None, None, None => true
  | _, _, _, _, _, _ => false
  end.

(** The same answers, with the crash reporter's client active or not. *)
Definition with_sentry (en : env) (b : bool) : env :=
  {| debug_assertions := debug_assertions en; sentry_enabled := b;
     plugin_result := plugin_result en; register_result := register_result en;
     sidecar_result := sidecar_result en; spawn_result := spawn_result en;
     loop_result := loop_result en |}.


(** The same answers, except for the logging plugin's initialisation. *)
Definition with_log_result (en : env) (f : log.LevelFilter -> option string) : env :=
  {| debug_assertions := debug_assertions en; sentry_enabled := sentry_enabled en;
     plugin_result := fun p => match p with
                               | log_build l => f l
                               | _ => plugin_result en p
                               end;
     register_result := register_result en;
     sidecar_result := sidecar_result en; spawn_result := spawn_result en;
     loop_result := loop_result en |}.


(** ** Sample environments *)

Definition env_ok (debug : bool) : env :=
  {| debug_assertions := debug; sentry_enabled := true;
     plugin_result := fun _ => None; register_result := None;
     sidecar_result := None; spawn_result := None; loop_result := None |}.

Example run_ok_debug :
  run_trace "app" "0.1.0" (env_ok true) =
  [SentryInit {| dsn := sentry_dsn; release := Some "app@0.1.0" |} true;
   PluginInit shell_init; PluginInit updater_build; PluginInit deep_link_init;
   SetupCall; HandlePlugin (log_build log.Info);
   DeepLinkRegister "soulsense" deep_link_handler;
   HandlePlugin (deep_link_register "soulsense");
   SidecarResolve "soul-sense-backend"; SidecarSpawn "soul-sense-backend";
   DropChild; DropRx; LoopEnter; LoopExit]
  /\ run_outcome "app" "0.1.0" (env_ok true) = Ok tt.
Proof. split; reflexivity. Qed.

(** [env_ok] where the deep-link [register] call fails. *)
Definition env_register_fails : env :=
  {| debug_assertions := false; sentry_enabled := true;
     plugin_result := fun _ => None; register_result := Some "register failed";
     sidecar_result := None; spawn_result := None; loop_result := None |}.

(** [env_ok] where the bundled executable is missing: the spawn fails with
    the [Debug] rendering of an [io::ErrorKind::NotFound] error. *)
Definition env_spawn_fails : env :=
  {| debug_assertions := false; sentry_enabled := true;
     plugin_result := fun _ => None; register_result := None;
     sidecar_result := None; spawn_result := Some "Io(NotFound)";
     loop_result := None |}.

(** ** Proof automation *)

(** Unfold one start of the program and split on the answers of the
    environment in the order the program asks for them. *)
Ltac run_cases en :=
  let dbg := fresh "dbg" in let se := fresh "se" in let pr := fresh "pr" in
  let rr := fresh "rr" in let sr := fresh "sr" in let spr := fresh "spr" in
  let lr := fresh "lr" in
  destruct en as [dbg se pr rr sr spr lr];
  unfold run_trace, run_outcome, run, app_builder, registrations_ok, with_sentry,
    with_log_result,
    sentry_init, release_name, expect_result, Builder_run, Builder_setup,
    Builder_plugin, Builder_default, setup, expect, unwrap, handle_plugin,
    deep_link_register_call, bind, ret, emit, question, map_err;
  cbn -[deep_link_handler];
  repeat (match goal with
          | |- context [match ?x with _ => _ end] => is_var x; destruct x
          | |- context [match ?f ?a with _ => _ end] => is_var f; destruct (f a)
          end;
          unfold bind, ret, emit, question, map_err; cbn -[deep_link_handler]).

(** Close a goal [In x l -> P x] over a concrete list [l]. *)
Ltac in_cases :=
  let H := fresh "Hin" in
  intros H; repeat (destruct H as [H | H]; [subst | ]); try contradiction.

(** Close the goals left by [run_cases]: split conjunctions, use the
    environment's answers, and compute. *)
Ltac finish :=
  repeat (intros;
    repeat match goal with
    | H : _ /\ _ |- _ => destruct H
    | H : _ \/ _ |- _ => destruct H
    | H : true = true -> _ |- _ => specialize (H eq_refl)
    | H : false = true -> _ |- _ => clear H
    | H : Some _ = Some _ |- _ => injection H as H
    end;
    subst; try discriminate; try reflexivity; try split).

Example run_register_fails :
  run_outcome "app" "0.1.0" env_register_fails =
  Panic "error while running tauri application: Setup(register failed)".
Proof. reflexivity. Qed.

(** ** C1: the sidecar is resolved and spawned at most once *)

(** C1 (corrected).  In every start of [run], the sidecar
    "soul-sense-backend" is resolved at most once and spawned at most once,
    with no retry: it is resolved exactly when every plugin registration
    before it succeeded, and spawned exactly when moreover the resolution
    succeeded.  The crash reporter plays no part in these counts. *)
Theorem sidecar_attempted_at_most_once :
  forall n v en,
    count is_sidecar_resolve (run_trace n v en) =
      (if registrations_ok en then 1 else 0) /\
    count is_sidecar_spawn (run_trace n v en) =
      (if registrations_ok en then
         match sidecar_result en with None => 1 | Some _ => 0 end
       else 0) /\
    (forall ev, In ev (run_trace n v en) ->
       is_sidecar_resolve ev || is_sidecar_spawn ev = true ->
       ev = SidecarResolve "soul-sense-backend" \/ ev = SidecarSpawn "soul-sense-backend").
Proof.
  intros n v en. run_cases en;
    (split; [reflexivity | split; [reflexivity | intros ev; in_cases; cbn; try discriminate; auto]]).
Qed.

(** C1 counterexample: when the deep-link registration fails, the sidecar
    is neither resolved nor spawned. *)
Lemma sidecar_skipped_when_register_fails :
  count is_sidecar_resolve (run_trace "app" "0.1.0" env_register_fails) = 0 /\
  count is_sidecar_spawn (run_trace "app" "0.1.0" env_register_fails) = 0.
Proof. split; reflexivity. Qed.

(** ** C2: a failing sidecar resolution or spawn is fatal *)

(** C2 (corrected).  Once the plugin registrations succeeded, a failing
    sidecar resolution panics with Rust's [unwrap] message and a failing
    spawn panics with "Failed to spawn sidecar: " followed by the error's
    rendering; either way the process exits with status 101 and the run
    loop is never entered. *)
Theorem sidecar_failure_is_fatal_before_loop :
  forall n v en e,
    registrations_ok en = true ->
    (sidecar_result en = Some e ->
       run_outcome n v en =
         Panic ("called `Result::unwrap()` on an `Err` value: " ++ e)%string /\
       exit_code (run_outcome n v en) = 101 /\
       count is_sidecar_spawn (run_trace n v en) = 0 /\
       count is_loop_enter (run_trace n v en) = 0) /\
    (sidecar_result en = None -> spawn_result en = Some e ->
       run_outcome n v en = Panic ("Failed to spawn sidecar: " ++ e)%string /\
       exit_code (run_outcome n v en) = 101 /\
       count is_loop_enter (run_trace n v en) = 0).
Proof.
  intros n v en e. run_cases en; finish.
Qed.

Lemma sidecar_failure_is_fatal_before_loop_witness :
  registrations_ok env_spawn_fails = true /\
  run_outcome "app" "0.1.0" env_spawn_fails =
    Panic "Failed to spawn sidecar: Io(NotFound)".
Proof.
  split; [reflexivity |].
  apply (proj2 (sidecar_failure_is_fatal_before_loop "app" "0.1.0" env_spawn_fails
                  "Io(NotFound)" eq_refl) eq_refl eq_refl).
Defined.

(** C2 counterexample: with the executable missing, the diagnostic is
    "Failed to spawn sidecar: " and the I/O error, which does not name
    "soul-sense-backend". *)
Lemma spawn_failure_message_omits_sidecar_name :
  run_outcome "app" "0.1.0" env_spawn_fails =
    Panic "Failed to spawn sidecar: Io(NotFound)" /\
  String.index 0 sidecar_name "Failed to spawn sidecar: Io(NotFound)" = None.
Proof. split; reflexivity. Qed.

(** ** C3: the logging plugin *)

(** C3.  In a debug build the logging plugin at level [Info] is registered
    before any deep-link or sidecar step; in a release build no logging
    plugin is ever registered. *)
Theorem log_plugin_registered_only_in_debug :
  forall n v en,
    (debug_assertions en = true ->
     existsb is_deep_link_or_sidecar_step (run_trace n v en) = true ->
     In (HandlePlugin (log_build log.Info))
        (before_first is_deep_link_or_sidecar_step (run_trace n v en))) /\
    (debug_assertions en = false ->
     count is_log_registration (run_trace n v en) = 0).
Proof.
  intros n v en. run_cases en; finish;
    cbn; repeat first [left; reflexivity | right].
Qed.

(** ** C4: registration failures inside the setup closure *)

(** C4.  When the debug logging plugin, the deep-link [register] call or
    the plugin it returns fails with [e], the setup closure returns [Err e];
    the host turns it into [Err (Setup e)], [run] panics with it, and
    neither the sidecar step nor the run loop is reached. *)
Theorem setup_registration_failure_propagates :
  forall n v en e,
    (debug_assertions en = true /\ plugin_result en (log_build log.Info) = Some e) \/
    ((debug_assertions en = true -> plugin_result en (log_build log.Info) = None) /\
     (register_result en = Some e \/
      (register_result en = None /\
       plugin_result en (deep_link_register "soulsense") = Some e))) ->
    fst (setup en []) = Err e /\
    (plugin_result en shell_init = None -> plugin_result en updater_build = None ->
     plugin_result en deep_link_init = None ->
     fst (Builder_run en (app_builder en) []) = Err (Setup e) /\
     run_outcome n v en =
       Panic ("error while running tauri application: Setup(" ++ e ++ ")")%string /\
     count is_loop_enter (run_trace n v en) = 0 /\
     count is_sidecar_resolve (run_trace n v en) = 0).
Proof.
  intros n v en e. run_cases en; finish.
Qed.

Lemma setup_registration_failure_propagates_witness :
  run_outcome "app" "0.1.0" env_register_fails =
    Panic "error while running tauri application: Setup(register failed)".
Proof.
  apply (proj2 (setup_registration_failure_propagates "app" "0.1.0"
                  env_register_fails "register failed"
                  (or_intror (conj (fun H => eq_refl) (or_introl eq_refl))))
           eq_refl eq_refl eq_refl).
Defined.

(** ** C5: the run loop *)

(** C5.  When every step of the setup succeeds, [run] enters the run loop
    exactly once; if the loop returns an error [e], [run] panics with
    "error while running tauri application: Runtime(e)", nothing happens
    after the loop, and the exit status is 101; otherwise [run] returns
    normally. *)
Theorem run_loop_error_is_fatal :
  forall n v en,
    registrations_ok en = true ->
    sidecar_result en = None ->
    spawn_result en = None ->
    count is_loop_enter (run_trace n v en) = 1 /\
    (forall e, loop_result en = Some e ->
       run_outcome n v en =
         Panic ("error while running tauri application: Runtime(" ++ e ++ ")")%string /\
       exit_code (run_outcome n v en) = 101 /\
       after_first is_loop_enter (run_trace n v en) = Some []) /\
    (loop_result en = None -> run_outcome n v en = Ok tt).
Proof.
  intros n v en. run_cases en; finish.
Qed.

Lemma run_loop_error_is_fatal_witness :
  count is_loop_enter (run_trace "app" "0.1.0" (env_ok false)) = 1.
Proof.
  apply (proj1 (run_loop_error_is_fatal "app" "0.1.0" (env_ok false)
                  eq_refl eq_refl eq_refl)).
Defined.

(** ** C6: the spawned child is left alone *)

(** C6.  After a successful spawn the setup closure only drops the child
    handle and the receiver; the remaining events are the run loop's, and
    no operation on the child or the receiver occurs anywhere in a start of
    [run]: nothing is sent, received, awaited or killed. *)
Theorem spawned_child_is_discarded :
  forall n v en post,
    after_first is_sidecar_spawn (run_trace n v en) = Some post ->
    spawn_result en = None ->
    post = [DropChild; DropRx; LoopEnter] ++
           (match loop_result en with None => [LoopExit] | Some _ => [] end) /\
    count is_child_op (run_trace n v en) = 0.
Proof.
  intros n v en post. run_cases en; finish.
Qed.

Lemma spawned_child_is_discarded_witness :
  count is_child_op (run_trace "app" "0.1.0" (env_ok true)) = 0.
Proof.
  apply (proj2 (spawned_child_is_discarded "app" "0.1.0" (env_ok true)
                  [DropChild; DropRx; LoopEnter; LoopExit] eq_refl eq_refl)).
Defined.

(** ** C7: the deep-link handler *)

(** C7.  At most one deep-link handler is registered in a start of [run],
    exactly one when the run loop is reached; it is bound to the scheme
    "soulsense" and is [deep_link_handler], which only prints the request:
    it emits nothing to the frontend and gives no response. *)
Theorem single_deep_link_handler :
  forall n v en,
    count is_deep_link_register (run_trace n v en) <= 1 /\
    (count is_loop_enter (run_trace n v en) = 1 ->
     count is_deep_link_register (run_trace n v en) = 1) /\
    (forall s h, In (DeepLinkRegister s h) (run_trace n v en) ->
     s = "soulsense" /\ h = deep_link_handler) /\
    (forall request,
       deep_link_handler request = [Println ("Deep link received: " ++ request)%string]).
Proof.
  intros n v en.
  assert (Hh : forall request, deep_link_handler request =
                 [Println ("Deep link received: " ++ request)%string])
    by reflexivity.
  run_cases en;
    (split; [cbn; lia | split; [finish | split; [intros ? ?; in_cases | exact Hh]]]);
    match goal with
    | H : DeepLinkRegister _ _ = DeepLinkRegister _ _ |- _ =>
        injection H as <- <-; auto
    | H : _ = DeepLinkRegister _ _ |- _ => discriminate H
    end.
Qed.

(** ** C8: the crash reporter is best-effort *)

(** C8.  [sentry::init] is called first, with the release identifier
    "CARGO_PKG_NAME@CARGO_PKG_VERSION"; whether it yields an active client
    changes nothing else: the rest of the start and its outcome are the same
    with an active and with an inactive client. *)
Theorem sentry_init_is_best_effort :
  forall n v en b,
    hd_error (run_trace n v (with_sentry en b)) =
      Some (SentryInit {| dsn := sentry_dsn;
                          release := Some (n ++ "@" ++ v)%string |} b) /\
    tl (run_trace n v (with_sentry en b)) = tl (run_trace n v en) /\
    run_outcome n v (with_sentry en b) = run_outcome n v en.
Proof.
  intros n v en b. run_cases en; finish.
Qed.

(** ** C9: deep links do not wait for the sidecar *)

(** C9.  Whenever the setup reaches the sidecar step, a "soulsense" request
    delivered at any point from the handler's registration on runs the
    handler: already before the sidecar is resolved or spawned, and after
    the whole start alike.  Delivery does not consult the sidecar. *)
Theorem deep_link_fires_before_sidecar :
  forall n v en request,
    count is_sidecar_resolve (run_trace n v en) = 1 ->
    deliver (before_first is_sidecar_resolve (run_trace n v en)) "soulsense" request =
      deep_link_handler request /\
    count is_sidecar_spawn (before_first is_sidecar_resolve (run_trace n v en)) = 0 /\
    deliver (run_trace n v en) "soulsense" request = deep_link_handler request.
Proof.
  intros n v en request. run_cases en; finish; apply app_nil_r.
Qed.

Lemma deep_link_fires_before_sidecar_witness :
  deliver (before_first is_sidecar_resolve (run_trace "app" "0.1.0" (env_ok false)))
    "soulsense" "soulsense://callback" =
  deep_link_handler "soulsense://callback".
Proof.
  apply (proj1 (deep_link_fires_before_sidecar "app" "0.1.0" (env_ok false)
                  "soulsense://callback" eq_refl)).
Defined.

(** ** C10: the crash reporter's endpoint is a constant *)

(** C10.  In every start, whatever the environment, the crash reporter is
    initialised with the connection string
    "https://your-sentry-dsn@sentry.io/project-id", and with no other. *)
Theorem sentry_dsn_is_constant :
  forall n v en,
    hd_error (run_trace n v en) =
      Some (SentryInit {| dsn := "https://your-sentry-dsn@sentry.io/project-id";
                          release := release_name n v |} (sentry_enabled en)) /\
    (forall o b, In (SentryInit o b) (run_trace n v en) ->
       dsn o = "https://your-sentry-dsn@sentry.io/project-id").
Proof.
  intros n v en. run_cases en;
    (split; [reflexivity | intros ? ?; in_cases]);
    match goal with
    | H : SentryInit _ _ = SentryInit _ _ |- _ => injection H as <- <-; reflexivity
    | H : _ = SentryInit _ _ |- _ => discriminate H
    end.
Qed.

(** * Further properties of [run] *)





(** [run] returns normally (exit status 0) exactly when every plugin
    registration, the sidecar resolution, the spawn and the run loop
    succeed. *)
Theorem run_returns_iff_all_succeed :
  forall n v en,
    run_outcome n v en = Ok tt <->
    registrations_ok en = true /\ sidecar_result en = None /\
    spawn_result en = None /\ loop_result en = None.
Proof.
  intros n v en. run_cases en; split; finish.
Qed.

(** Every abnormal end of [run] is a panic with one of the three messages
    of the source: the sidecar [unwrap], the spawn's [expect], or the
    [expect] on the host's result. *)
Theorem run_panic_messages :
  forall n v en,
    run_outcome n v en = Ok tt \/
    exists e,
      run_outcome n v en = Panic ("called `Result::unwrap()` on an `Err` value: " ++ e)%string \/
      run_outcome n v en = Panic ("Failed to spawn sidecar: " ++ e)%string \/
      run_outcome n v en = Panic ("error while running tauri application: " ++ e)%string.
Proof.
  intros n v en. run_cases en;
    first [left; reflexivity
          | right; eexists;
            first [left; reflexivity | right; left; reflexivity | right; right; reflexivity]].
Qed.

(** The setup closure fails with an error only at a plugin registration,
    before the sidecar step, and panics only at the sidecar step. *)
Theorem setup_errors_and_panics :
  forall en,
    match fst (setup en []) with
    | Ok _ => count is_sidecar_spawn (snd (setup en [])) = 1
    | Err _ => count is_sidecar_resolve (snd (setup en [])) = 0
    | Panic _ => count is_sidecar_resolve (snd (setup en [])) = 1
    end.
Proof.
  intros en. run_cases en; reflexivity.
Qed.



(** Delivery to a scheme no handler in the calls was registered for
    runs nothing. *)
Lemma deliver_unregistered_scheme :
  forall tr scheme request,
    (forall s h, In (DeepLinkRegister s h) tr -> s <> scheme) ->
    deliver tr scheme request = [].
Proof.
  induction tr as [|ev tr IH]; intros scheme request H; [reflexivity |].
  destruct ev; cbn; try (apply IH; intros s h Hin; apply (H s h); right; exact Hin).
  destruct (String.eqb_spec scheme0 scheme) as [->|_].
  - exfalso. apply (H scheme handler); [left; reflexivity | reflexivity].
  - apply IH. intros s h Hin. apply (H s h). right. exact Hin.
Qed.

(** A deep-link request for any scheme other than "soulsense" reaches no
    handler, at any point of a start. *)
Theorem other_schemes_reach_no_handler :
  forall n v en pre post scheme request,
    pre ++ post = run_trace n v en ->
    scheme <> "soulsense" ->
    deliver pre scheme request = [].
Proof.
  intros n v en pre post scheme request Hsplit Hs.
  apply deliver_unregistered_scheme. intros s h Hin Heq. subst s.
  apply Hs. clear Hs.
  assert (Hall : In (DeepLinkRegister scheme h) (run_trace n v en))
    by (rewrite <- Hsplit; apply in_or_app; left; exact Hin).
  clear Hin Hsplit. revert Hall. run_cases en; in_cases;
    match goal with
    | H : DeepLinkRegister _ _ = DeepLinkRegister _ _ |- _ => injection H as <- _; reflexivity
    | H : _ = DeepLinkRegister _ _ |- _ => discriminate H
    end.
Qed.

Lemma other_schemes_reach_no_handler_witness :
  deliver (run_trace "app" "0.1.0" (env_ok true)) "https" "https://x" = [].
Proof.
  apply (other_schemes_reach_no_handler "app" "0.1.0" (env_ok true)
           (run_trace "app" "0.1.0" (env_ok true)) []).
  - apply app_nil_r.
  - discriminate.
Defined.

(** In a release build the logging plugin plays no part: whatever its
    initialisation would answer, the start makes the same calls and ends
    the same way. *)
Theorem release_ignores_log_plugin :
  forall n v en f,
    debug_assertions en = false ->
    run_trace n v (with_log_result en f) = run_trace n v en /\
    run_outcome n v (with_log_result en f) = run_outcome n v en.
Proof.
  intros n v en f. run_cases en; finish.
Qed.

Lemma release_ignores_log_plugin_witness :
  run_outcome "app" "0.1.0" (with_log_result (env_ok false) (fun _ => Some "log failed")) =
  Ok tt.
Proof.
  rewrite (proj2 (release_ignores_log_plugin "app" "0.1.0" (env_ok false)
                    (fun _ => Some "log failed") eq_refl)).
  reflexivity.
Defined.
